(** * lightshow: the gradient image written by [main.c]

    [main.c] is one function.  It prints the header of a plain-text PPM
    image ([P3], the dimensions, the maximum channel value) and then one
    line per pixel of a 256 x 256 image, row after row.  The channel values
    of a pixel are computed in double precision and converted to [int].

    The embedding below follows the C text statement by statement:
    - [int] values are integers of [Z] restricted to the 32-bit range; an
      arithmetic result outside of the range is undefined behaviour;
    - [double] values are IEEE 754 binary64 numbers, taken from the
      [SpecFloat] module of the standard library (round to nearest, ties
      to even); every operation is evaluated in binary64, without excess
      precision;
    - standard output is the string of the characters written so far;
    - a statement is a function from the output written so far to an
      [outcome]; the [for] loops are bounded by a fuel argument. *)

From Stdlib Require Import ZArith List Bool Lia.
From Stdlib Require Import Ascii String.
From Stdlib Require Import QArith Qround.
From Stdlib Require Import SpecFloat.
From Stdlib Require Import DecimalString DecimalPos DecimalZ.
Import ListNotations.

Local Open Scope string_scope.
Local Open Scope Z_scope.

(** ** The C fragment used by the program *)

Module C.

(** *** Outcomes and statements *)

Inductive outcome (A : Type) : Type :=
| Returns (a : A) (out : string)   (* value and standard output so far *)
| Undefined                        (* undefined behaviour *)
| OutOfFuel.                       (* a loop ran longer than the fuel *)

Arguments Returns {A} a out.
Arguments Undefined {A}.
Arguments OutOfFuel {A}.

Definition M (A : Type) : Type := string -> outcome A.

Definition ret {A} (a : A) : M A := fun out => Returns a out.

Definition bind {A B} (m : M A) (k : A -> M B) : M B :=
  fun out =>
    match m out with
    | Returns a out' => k a out'
    | Undefined => Undefined
    | OutOfFuel => OutOfFuel
    end.

Definition lift {A} (o : option A) : M A :=
  fun out => match o with Some a => Returns a out | None => Undefined end.

(** *** [int] *)

Definition INT_MIN : Z := -2147483648.
Definition INT_MAX : Z := 2147483647.

Definition in_int (z : Z) : bool := (INT_MIN <=? z) && (z <=? INT_MAX).

Definition checked (z : Z) : option Z := if in_int z then Some z else None.

Definition int_add (a b : Z) : option Z := checked (a + b).
Definition int_sub (a b : Z) : option Z := checked (a - b).

(** *** [double] *)

Definition prec : Z := 53.
Definition emax : Z := 1024.

Definition double : Type := spec_float.

(** Conversion from [int]: every 32-bit integer is a binary64 number. *)
Definition double_of_int (z : Z) : double := binary_normalize prec emax z 0 false.

Definition double_div (x y : double) : double := SFdiv prec emax x y.
Definition double_mul (x y : double) : double := SFmul prec emax x y.

(** Conversion to [int] discards the fractional part (rounds toward
    zero); it is undefined when the value is not finite or its integral
    part is not an [int]. *)
Definition int_of_double (x : double) : option Z :=
  match x with
  | S754_zero _ => Some 0
  | S754_finite s m e =>
      let t := Z.shiftl (Zpos m) e in
      checked (if s then - t else t)
  | S754_infinity _ | S754_nan => None
  end.

(** The literal [255.999]: the binary64 number nearest to 255999/1000,
    0x1.ffff7ced91687p+7. *)
Definition lit_255_999 : double := S754_finite false 9007164070368903 (-45).

(** *** [printf] with [%d] conversions

    Only the conversion [%d] is interpreted; ordinary characters are
    copied.  A conversion without an argument, and any other conversion,
    is undefined. *)

Definition LF : ascii := "010"%char.
Definition nl : string := String LF "".

(** [%d] of an [int]: decimal digits, with a minus sign when negative. *)
Definition itoa (z : Z) : string := NilZero.string_of_int (Z.to_int z).

Fixpoint format (fmt : string) (args : list Z) : option string :=
  match fmt with
  | "" => Some ""
  | String "%" (String "d" rest) =>
      match args with
      | a :: args' => option_map (append (itoa a)) (format rest args')
      | [] => None
      end
  | String "%" _ => None
  | String c rest => option_map (String c) (format rest args)
  end.

Definition printf (fmt : string) (args : list Z) : M unit :=
  fun out =>
    match format fmt args with
    | Some text => Returns tt (out ++ text)
    | None => Undefined
    end.

(** *** [for (int j = lo; j < bound; ++j) body] *)

Fixpoint for_lt (fuel : nat) (j bound : Z) (body : Z -> M unit) : M unit :=
  if j <? bound then
    match fuel with
    | O => fun _ => OutOfFuel
    | S fuel' =>
        bind (body j) (fun _ =>
        bind (lift (int_add j 1)) (fun j' =>
        for_lt fuel' j' bound body))
    end
  else ret tt.

End C.

Import C.

Notation "x <- m ;; k" := (bind m (fun x => k))
  (at level 61, m at next level, right associativity).
Notation "m ;; k" := (bind m (fun _ => k))
  (at level 61, right associativity).

(** ** [main.c] *)

(** The body of the inner loop: lines 13 to 21. *)
Definition pixel (image_width image_height j i : Z) : M unit :=
  w1 <- lift (int_sub image_width 1) ;;
  let r := double_div (double_of_int i) (double_of_int w1) in
  h1 <- lift (int_sub image_height 1) ;;
  let g := double_div (double_of_int j) (double_of_int h1) in
  let b := double_of_int 0 in
  ir <- lift (int_of_double (double_mul lit_255_999 r)) ;;
  ig <- lift (int_of_double (double_mul lit_255_999 g)) ;;
  ib <- lift (int_of_double (double_mul lit_255_999 b)) ;;
  printf ("%d %d %d" ++ nl) [ir; ig; ib].

(** [main]; leaving [main] without a [return] returns 0. *)
Definition main (fuel : nat) : M Z :=
  let image_width := 256 in
  let image_height := 256 in
  printf ("P3" ++ nl) [] ;;
  printf ("%d %d" ++ nl) [image_width; image_height] ;;
  printf ("255" ++ nl) [] ;;
  for_lt fuel 0 image_height (fun j =>
    for_lt fuel 0 image_width (fun i =>
      pixel image_width image_height j i)) ;;
  ret 0.

(** ** Reading the output back

    The properties of the output are stated on its text: the output is cut
    into lines at the newline characters, and a pixel line into integers at
    the spaces. *)

(** The fields of [s] between the occurrences of [sep].  A text with [n]
    separators has [n + 1] fields; the last field of a text that ends with
    a separator is empty. *)
Fixpoint split_on (sep : ascii) (s : string) : list string :=
  match s with
  | "" => [""]
  | String c s' =>
      if Ascii.eqb c sep then "" :: split_on sep s'
      else match split_on sep s' with
           | f :: fs => String c f :: fs
           | [] => [String c ""]
           end
  end.

(** The lines of a text, each without its newline, and what follows the
    last newline. *)
Definition lines (out : string) : list string := removelast (split_on LF out).
Definition unterminated (out : string) : string := last (split_on LF out) "".

(** The [n]-th line of a text, counted from 1. *)
Definition nth_line (out : string) (n : Z) : option string :=
  if n <? 1 then None else nth_error (lines out) (Z.to_nat (n - 1)).

(** The line of the pixel at row [j], column [i]: after the three header
    lines, 256 lines per row. *)
Definition pixel_line (out : string) (j i : Z) : option string :=
  nth_line out (3 + j * 256 + i + 1).

Definition read_int (s : string) : option Z :=
  option_map Z.of_int (NilZero.int_of_string s).

(** The three integers of a pixel line. *)
Definition read_pixel (line : string) : option (Z * Z * Z) :=
  match split_on " " line with
  | [a; b; c] =>
      match read_int a, read_int b, read_int c with
      | Some r, Some g, Some b => Some (r, g, b)
      | _, _, _ => None
      end
  | _ => None
  end.

(** The channel values read from the line of the pixel at [(j, i)]. *)
Definition channels (out : string) (j i : Z) : option (Z * Z * Z) :=
  match pixel_line out j i with
  | Some line => read_pixel line
  | None => None
  end.

Definition red (out : string) (j i : Z) : option Z :=
  option_map (fun c => fst (fst c)) (channels out j i).
Definition green (out : string) (j i : Z) : option Z :=
  option_map (fun c => snd (fst c)) (channels out j i).
Definition blue (out : string) (j i : Z) : option Z :=
  option_map snd (channels out j i).

(** The text of a pixel line with the channel values [r], [g], [b]. *)
Definition triple (r g b : Z) : string :=
  itoa r ++ " " ++ itoa g ++ " " ++ itoa b.

(** ** The conversion formula of the specification

    [intensity = floor (channel_ratio * 255.999)], read in two ways: over
    the rational numbers, and over binary64 numbers with the exact value
    of the rounded product. *)

Definition ratio_exact (n size : Z) : Q := inject_Z n / inject_Z (size - 1).

Definition intensity_exact (channel_ratio : Q) : Z :=
  Qfloor (channel_ratio * (255999 # 1000)).

Definition ratio_double (n size : Z) : double :=
  double_div (double_of_int n) (double_of_int (size - 1)).

(** The exact value of a finite binary64 number. *)
Definition Q_of_double (x : double) : option Q :=
  match x with
  | S754_zero _ => Some 0%Q
  | S754_finite s m e =>
      Some (inject_Z (if s then Zneg m else Zpos m) * Qpower 2 e)%Q
  | S754_infinity _ | S754_nan => None
  end.

Definition intensity_double (channel_ratio : double) : option Z :=
  option_map Qfloor (Q_of_double (double_mul channel_ratio lit_255_999)).

(** ** The text of the image in closed form *)

(** [range lo n] is [lo; lo + 1; ...; lo + n - 1]. *)
Fixpoint range (lo : Z) (n : nat) : list Z :=
  match n with
  | O => []
  | S n' => lo :: range (lo + 1) n'
  end.

(** [free_of sep s]: the character [sep] does not occur in [s]. *)
Fixpoint free_of (sep : ascii) (s : string) : bool :=
  match s with
  | "" => true
  | String c s' => negb (Ascii.eqb c sep) && free_of sep s'
  end.

(** The characters of a decimal numeral: the digits and the minus sign. *)
Definition numeric (c : ascii) : bool :=
  match c with
  | "0" | "1" | "2" | "3" | "4" | "5" | "6" | "7" | "8" | "9" | "-" => true
  | _ => false
  end%char.

Definition cat (ss : list string) : string := fold_right append "" ss.

Definition unlines (ls : list string) : string :=
  cat (map (fun l => l ++ nl) ls).

Definition header : list string := ["P3"; "256 256"; "255"].

Definition row (j : Z) : list string :=
  map (fun i => triple i j 0) (range 0 256).

Definition rows : list string := flat_map row (range 0 256).

Definition image_text : string := unlines (header ++ rows).

(** ** Measures of the output text *)

(** The number of characters of a text. *)
Definition size (s : string) : Z := Z.of_nat (String.length s).

Definition total (zs : list Z) : Z := fold_right Z.add 0 zs.

(** [all_chars p s]: every character of [s] satisfies [p]. *)
Fixpoint all_chars (p : ascii -> bool) (s : string) : bool :=
  match s with
  | "" => true
  | String c s' => p c && all_chars p s'
  end.

Definition digit (c : ascii) : bool :=
  match c with
  | "0" | "1" | "2" | "3" | "4" | "5" | "6" | "7" | "8" | "9" => true
  | _ => false
  end%char.

(** The characters of the body of a plain PPM file without comments:
    digits and white space (here spaces and newlines). *)
Definition raster_char (c : ascii) : bool :=
  digit c || Ascii.eqb c " " || Ascii.eqb c LF.

(** * Proofs *)

(** ** The embedding on small inputs *)

Example format_three_ints :
  format ("%d %d %d" ++ nl) [12; -3; 0] = Some ("12 -3 0" ++ nl).
Proof. reflexivity. Qed.

Example format_missing_argument : format ("%d %d" ++ nl) [1] = None.
Proof. reflexivity. Qed.

Example int_of_double_truncates :
  int_of_double (S754_finite false 7 (-1)) = Some 3 /\
  int_of_double (S754_finite true 7 (-1)) = Some (-3) /\
  int_of_double (S754_finite false 1 31) = None.
Proof. repeat split. Qed.

Example pixel_at_3_200 :
  pixel 256 256 3 200 "" = Returns tt ("200 3 0" ++ nl).
Proof. vm_compute. reflexivity. Qed.

Example loop_three_pixels :
  for_lt 3 0 3 (fun i => pixel 256 256 255 i) ""
  = Returns tt ("0 255 0" ++ nl ++ "1 255 0" ++ nl ++ "2 255 0" ++ nl).
Proof. vm_compute. reflexivity. Qed.

Example loop_out_of_fuel :
  for_lt 2 0 3 (fun i => pixel 256 256 255 i) "" = OutOfFuel.
Proof. vm_compute. reflexivity. Qed.

Example main_out_of_fuel : main 0 "" = OutOfFuel.
Proof. vm_compute. reflexivity. Qed.

Example lines_of_text :
  lines ("ab" ++ nl ++ nl ++ "c") = ["ab"; ""] /\
  unterminated ("ab" ++ nl ++ nl ++ "c") = "c".
Proof. split; reflexivity. Qed.

Example read_pixel_examples :
  read_pixel "12 255 0" = Some (12, 255, 0) /\
  read_pixel "12 255" = None /\
  read_pixel "12  255 0" = None.
Proof. repeat split. Qed.

(** ** Strings *)

Lemma append_nil_r (s : string) : s ++ "" = s.
Proof. induction s as [|c s IH]; simpl; [reflexivity | now rewrite IH]. Qed.

Lemma append_assoc (a b c : string) : (a ++ b) ++ c = a ++ (b ++ c).
Proof. induction a as [|x a IH]; simpl; [reflexivity | now rewrite IH]. Qed.

Lemma cat_cons (x : string) (xs : list string) : cat (x :: xs) = x ++ cat xs.
Proof. reflexivity. Qed.

Lemma cat_app (xs ys : list string) : cat (xs ++ ys) = cat xs ++ cat ys.
Proof.
  induction xs as [|x xs IH]; simpl; [reflexivity|].
  now rewrite IH, append_assoc.
Qed.

Lemma free_of_app (sep : ascii) (a b : string) :
  free_of sep (a ++ b) = free_of sep a && free_of sep b.
Proof.
  induction a as [|c a IH]; simpl; [reflexivity|].
  now rewrite IH, andb_assoc.
Qed.

(** ** Cutting a text at a separator *)

Lemma split_on_free (sep : ascii) (s : string) :
  free_of sep s = true -> split_on sep s = [s].
Proof.
  induction s as [|c s IH]; simpl; [reflexivity|].
  intros H. apply andb_prop in H as [Hc Hs].
  apply negb_true_iff in Hc. rewrite Hc, (IH Hs). reflexivity.
Qed.

Lemma split_on_field (sep : ascii) (s t : string) :
  free_of sep s = true ->
  split_on sep (s ++ String sep t) = s :: split_on sep t.
Proof.
  induction s as [|c s IH]; simpl.
  - intros _. now rewrite Ascii.eqb_refl.
  - intros H. apply andb_prop in H as [Hc Hs].
    apply negb_true_iff in Hc. rewrite Hc, (IH Hs). reflexivity.
Qed.

Lemma split_on_unlines (ls : list string) :
  Forall (fun l => free_of LF l = true) ls ->
  split_on LF (unlines ls) = (ls ++ [""])%list.
Proof.
  unfold unlines, cat. induction 1 as [|l ls Hl _ IH]; simpl; [reflexivity|].
  unfold nl at 1. rewrite append_assoc. simpl.
  rewrite (split_on_field _ _ _ Hl). now rewrite IH.
Qed.

Lemma lines_unlines (ls : list string) :
  Forall (fun l => free_of LF l = true) ls -> lines (unlines ls) = ls.
Proof.
  intros H. unfold lines. rewrite (split_on_unlines _ H).
  apply removelast_last.
Qed.

Lemma unterminated_unlines (ls : list string) :
  Forall (fun l => free_of LF l = true) ls -> unterminated (unlines ls) = "".
Proof.
  intros H. unfold unterminated. rewrite (split_on_unlines _ H).
  apply last_last.
Qed.

(** ** Decimal numerals *)

Section Numerals.

Variable sep : ascii.
Hypothesis sep_not_numeric : numeric sep = false.

Ltac other_char :=
  match goal with
  | |- context [Ascii.eqb ?c sep] =>
      destruct (Ascii.eqb_spec c sep) as [<-|_];
      [discriminate sep_not_numeric | cbn [negb andb]]
  end.

Lemma uint_free (d : Decimal.uint) :
  free_of sep (NilEmpty.string_of_uint d) = true.
Proof.
  induction d; cbn [NilEmpty.string_of_uint free_of];
    try other_char; auto.
Qed.

Lemma itoa_free (z : Z) : free_of sep (itoa z) = true.
Proof.
  unfold itoa, NilZero.string_of_int, NilZero.string_of_uint.
  destruct (Z.to_int z) as [d|d]; cbn [free_of]; try other_char;
    destruct d; try apply uint_free;
    cbn [free_of]; other_char; reflexivity.
Qed.

End Numerals.

Lemma read_int_itoa (z : Z) : read_int (itoa z) = Some z.
Proof.
  unfold read_int, itoa. rewrite NilZero.isi.
  - simpl. now rewrite DecimalZ.of_to.
  - destruct z as [|p|p]; simpl; try discriminate.
    intros E. injection E. apply Unsigned.to_uint_nonnil.
  - destruct z as [|p|p]; simpl; try discriminate.
    intros E. injection E. apply Unsigned.to_uint_nonnil.
Qed.

Lemma space_not_numeric : numeric " " = false.
Proof. reflexivity. Qed.

Lemma LF_not_numeric : numeric LF = false.
Proof. reflexivity. Qed.

Lemma split_triple (r g b : Z) :
  split_on " " (triple r g b) = [itoa r; itoa g; itoa b].
Proof.
  unfold triple. simpl.
  rewrite split_on_field by apply (itoa_free _ space_not_numeric).
  rewrite split_on_field by apply (itoa_free _ space_not_numeric).
  rewrite split_on_free by apply (itoa_free _ space_not_numeric).
  reflexivity.
Qed.

Lemma read_pixel_triple (r g b : Z) : read_pixel (triple r g b) = Some (r, g, b).
Proof.
  unfold read_pixel. rewrite split_triple.
  now rewrite !read_int_itoa.
Qed.

Lemma triple_free_LF (r g b : Z) : free_of LF (triple r g b) = true.
Proof.
  unfold triple. rewrite !free_of_app.
  now rewrite !(itoa_free _ LF_not_numeric).
Qed.

(** ** Ranges *)

Lemma length_range (n : nat) (lo : Z) : List.length (range lo n) = n.
Proof.
  revert lo. induction n as [|n IH]; intros lo; simpl; [reflexivity|].
  now rewrite IH.
Qed.

Lemma In_range (n : nat) (lo k : Z) :
  lo <= k < lo + Z.of_nat n -> In k (range lo n).
Proof.
  revert lo. induction n as [|n IH]; intros lo H; simpl; [lia|].
  destruct (Z.eq_dec lo k) as [E|E]; [now left | right].
  apply IH. lia.
Qed.

Lemma range_bounds (n : nat) (lo k : Z) :
  In k (range lo n) -> lo <= k < lo + Z.of_nat n.
Proof.
  revert lo. induction n as [|n IH]; intros lo; simpl; [tauto|].
  intros [E|H]; [lia|]. apply IH in H. lia.
Qed.

Lemma nth_error_range (n k : nat) (lo : Z) :
  (k < n)%nat -> nth_error (range lo n) k = Some (lo + Z.of_nat k).
Proof.
  revert lo k. induction n as [|n IH]; intros lo k H; [lia|].
  destruct k as [|k]; simpl.
  - f_equal. lia.
  - rewrite IH by lia. f_equal. lia.
Qed.

(** In a concatenation of blocks of the same length [w], the element at
    [q * w + r] is the element [r] of block [q]. *)
Lemma nth_error_blocks {A B : Type} (f : A -> list B) (w : nat) :
  (forall a, List.length (f a) = w) ->
  forall (l : list A) (q r : nat) (a : A),
    nth_error l q = Some a -> (r < w)%nat ->
    nth_error (flat_map f l) (q * w + r) = nth_error (f a) r.
Proof.
  intros Hw. induction l as [|x l IH]; intros q r a Hq Hr.
  - destruct q; discriminate.
  - destruct q as [|q]; simpl in Hq |- *.
    + injection Hq as ->. apply nth_error_app1. now rewrite Hw.
    + rewrite nth_error_app2 by (rewrite Hw; lia).
      rewrite Hw. replace (w + q * w + r - w)%nat with (q * w + r)%nat by lia.
      now apply IH.
Qed.

(** ** The channel values

    The three facts below are checked on each of the 256 coordinates by
    evaluation of the binary64 operations. *)

Lemma channel_table :
  forallb (fun n =>
    match int_of_double
            (double_mul lit_255_999
               (double_div (double_of_int n) (double_of_int 255))) with
    | Some z => z =? n
    | None => false
    end) (range 0 256) = true.
Proof. vm_compute. reflexivity. Qed.

Lemma intensity_exact_table :
  forallb (fun n => intensity_exact (ratio_exact n 256) =? n) (range 0 256)
  = true.
Proof. vm_compute. reflexivity. Qed.

Lemma intensity_double_table :
  forallb (fun n =>
    match intensity_double (ratio_double n 256) with
    | Some z => z =? n
    | None => false
    end) (range 0 256) = true.
Proof. vm_compute. reflexivity. Qed.

Lemma channel_value (n : Z) :
  0 <= n < 256 ->
  int_of_double
    (double_mul lit_255_999
       (double_div (double_of_int n) (double_of_int 255))) = Some n.
Proof.
  intros H. pose proof channel_table as T.
  rewrite forallb_forall in T. specialize (T n (In_range 256 0 n H)).
  destruct int_of_double as [z|]; [|discriminate].
  apply Z.eqb_eq in T. now subst.
Qed.

Lemma intensity_exact_value (n : Z) :
  0 <= n < 256 -> intensity_exact (ratio_exact n 256) = n.
Proof.
  intros H. pose proof intensity_exact_table as T.
  rewrite forallb_forall in T. specialize (T n (In_range 256 0 n H)).
  now apply Z.eqb_eq in T.
Qed.

Lemma intensity_double_value (n : Z) :
  0 <= n < 256 -> intensity_double (ratio_double n 256) = Some n.
Proof.
  intros H. pose proof intensity_double_table as T.
  rewrite forallb_forall in T. specialize (T n (In_range 256 0 n H)).
  destruct intensity_double as [z|]; [|discriminate].
  apply Z.eqb_eq in T. now subst.
Qed.

(** The literal is a normal binary64 number, the correctly rounded quotient
    of 255999 by 1000; it lies within half a unit in the last place, 2^-46,
    of 255999/1000. *)
Lemma lit_255_999_nearest :
  valid_binary prec emax lit_255_999 = true /\
  lit_255_999 = double_div (double_of_int 255999) (double_of_int 1000) /\
  Z.abs (1000 * 9007164070368903 - 255999 * 2 ^ 45) * 2 <= 1000.
Proof.
  split; [reflexivity | split]; vm_compute; [reflexivity | discriminate].
Qed.

(** ** Running the program *)

(** One pixel: the loop body appends the line [i j 0]. *)
Lemma pixel_run (j i : Z) (out : string) :
  0 <= j < 256 -> 0 <= i < 256 ->
  pixel 256 256 j i out = Returns tt (out ++ triple i j 0 ++ nl).
Proof.
  intros Hj Hi. unfold pixel, bind, lift.
  change (int_sub 256 1) with (Some 255). cbv beta iota zeta.
  rewrite (channel_value i Hi), (channel_value j Hj).
  change (int_of_double (double_mul lit_255_999 (double_of_int 0)))
    with (Some 0).
  unfold printf.
  change (format ("%d %d %d" ++ nl) [i; j; 0])
    with (Some (itoa i ++ " " ++ itoa j ++ " " ++ itoa 0 ++ nl)).
  unfold triple. now rewrite !append_assoc.
Qed.

(** A counting loop whose body appends [f k] at counter [k] appends the
    texts of the counters from [lo] to [bound - 1], in this order. *)
Lemma for_lt_run (body : Z -> M unit) (f : Z -> string) (bound : Z) :
  bound <= INT_MAX ->
  forall (n fuel : nat) (lo : Z) (out : string),
    INT_MIN <= lo -> lo + Z.of_nat n = bound -> (n <= fuel)%nat ->
    (forall k out', lo <= k < bound -> body k out' = Returns tt (out' ++ f k)) ->
    for_lt fuel lo bound body out = Returns tt (out ++ cat (map f (range lo n))).
Proof.
  intros Hmax. induction n as [|n IH]; intros fuel lo out Hlo Hn Hfuel Hbody.
  - assert (E : (lo <? bound) = false) by (apply Z.ltb_ge; lia).
    destruct fuel; simpl; rewrite E; unfold ret; now rewrite append_nil_r.
  - destruct fuel as [|fuel]; [lia|].
    assert (E : (lo <? bound) = true) by (apply Z.ltb_lt; lia).
    simpl. rewrite E. unfold bind at 1. rewrite Hbody by lia.
    unfold bind at 1, lift, int_add, checked, in_int.
    replace (INT_MIN <=? lo + 1) with true by (symmetry; apply Z.leb_le; lia).
    replace (lo + 1 <=? INT_MAX) with true by (symmetry; apply Z.leb_le; lia).
    simpl andb. cbv iota.
    rewrite IH; try lia.
    + now rewrite append_assoc.
    + intros k out' Hk. apply Hbody. lia.
Qed.

Lemma cat_rows (g : string -> string) (js : list Z) :
  cat (map g (flat_map row js)) = cat (map (fun j => cat (map g (row j))) js).
Proof.
  induction js as [|j js IH]; [reflexivity|].
  cbn [flat_map map]. now rewrite map_app, cat_app, cat_cons, IH.
Qed.

(** With fuel for 256 iterations of each loop, [main] returns 0 and has
    written [image_text]. *)
Lemma main_run (fuel : nat) :
  (256 <= fuel)%nat -> main fuel "" = Returns 0 image_text.
Proof.
  intros Hfuel. unfold main.
  set (inner := fun j : Z => for_lt fuel 0 256 (fun i => pixel 256 256 j i)).
  assert (Hinner : forall j out, 0 <= j < 256 ->
            inner j out
            = Returns tt
                (out ++ cat (map (fun l => l ++ nl) (row j)))).
  { intros j out Hj. unfold inner, row. rewrite map_map.
    apply (for_lt_run _ (fun i => triple i j 0 ++ nl) 256);
      try (unfold INT_MAX, INT_MIN; lia).
    intros i out' Hi. now apply pixel_run. }
  unfold bind at 1, printf at 1.
  change (format ("P3" ++ nl) []) with (Some ("P3" ++ nl)).
  unfold bind at 1, printf at 1.
  change (format ("%d %d" ++ nl) [256; 256]) with (Some ("256 256" ++ nl)).
  unfold bind at 1, printf at 1.
  change (format ("255" ++ nl) []) with (Some ("255" ++ nl)).
  unfold bind.
  rewrite (for_lt_run inner
             (fun j => cat (map (fun l => l ++ nl) (row j))) 256
             ltac:(unfold INT_MAX; lia) 256 fuel 0);
    try (unfold INT_MIN; lia).
  - unfold ret, image_text, unlines. rewrite map_app, cat_app.
    unfold rows. rewrite cat_rows. reflexivity.
  - intros j out' Hj. now apply Hinner.
Qed.

(** ** The lines of the image *)

Lemma length_row (j : Z) : List.length (row j) = 256%nat.
Proof. unfold row. now rewrite length_map, length_range. Qed.

Lemma length_blocks {A B : Type} (f : A -> list B) (w : nat) (l : list A) :
  (forall a, List.length (f a) = w) ->
  List.length (flat_map f l) = (List.length l * w)%nat.
Proof.
  intros Hw. induction l as [|a l IH]; simpl; [reflexivity|].
  now rewrite length_app, Hw, IH.
Qed.

Lemma length_rows : List.length rows = (256 * 256)%nat.
Proof.
  unfold rows. rewrite (length_blocks row 256 _ length_row), length_range.
  reflexivity.
Qed.

Lemma rows_triples (l : string) :
  In l rows ->
  exists j i, 0 <= j < 256 /\ 0 <= i < 256 /\ l = triple i j 0.
Proof.
  unfold rows, row. intros H.
  apply in_flat_map in H as (j & Hj & H).
  apply in_map_iff in H as (i & <- & Hi).
  apply range_bounds in Hj, Hi. exists j, i. repeat split; lia.
Qed.

Lemma image_lines_free :
  Forall (fun l => free_of LF l = true) (header ++ rows).
Proof.
  apply Forall_app. split.
  - repeat constructor.
  - apply Forall_forall. intros l H.
    apply rows_triples in H as (j & i & _ & _ & ->). apply triple_free_LF.
Qed.

Lemma lines_image : lines image_text = (header ++ rows)%list.
Proof. apply lines_unlines, image_lines_free. Qed.

Lemma unterminated_image : unterminated image_text = "".
Proof. apply unterminated_unlines, image_lines_free. Qed.

Lemma nth_rows (j i : Z) :
  0 <= j < 256 -> 0 <= i < 256 ->
  nth_error rows (Z.to_nat j * 256 + Z.to_nat i) = Some (triple i j 0).
Proof.
  intros Hj Hi. unfold rows.
  rewrite (nth_error_blocks row 256 length_row (range 0 256) _ _ j).
  - unfold row. rewrite nth_error_map, nth_error_range by lia.
    simpl. do 2 f_equal. lia.
  - rewrite nth_error_range by lia. f_equal. lia.
  - lia.
Qed.

Lemma nth_line_header (n : Z) :
  1 <= n <= 3 ->
  nth_line image_text n = nth_error header (Z.to_nat (n - 1)).
Proof.
  intros H. unfold nth_line.
  replace (n <? 1) with false by (symmetry; apply Z.ltb_ge; lia).
  rewrite lines_image. apply nth_error_app1. simpl. lia.
Qed.

Lemma pixel_line_image (j i : Z) :
  0 <= j < 256 -> 0 <= i < 256 ->
  pixel_line image_text j i = Some (triple i j 0).
Proof.
  intros Hj Hi. unfold pixel_line, nth_line.
  replace (3 + j * 256 + i + 1 <? 1) with false
    by (symmetry; apply Z.ltb_ge; lia).
  rewrite lines_image.
  rewrite nth_error_app2 by (change (List.length header) with 3%nat; lia).
  replace (Z.to_nat (3 + j * 256 + i + 1 - 1) - List.length header)%nat
    with (Z.to_nat j * 256 + Z.to_nat i)%nat
    by (change (List.length header) with 3%nat; lia).
  now apply nth_rows.
Qed.

Lemma channels_image (j i : Z) :
  0 <= j < 256 -> 0 <= i < 256 ->
  channels image_text j i = Some (i, j, 0).
Proof.
  intros Hj Hi. unfold channels.
  rewrite (pixel_line_image j i Hj Hi). apply read_pixel_triple.
Qed.

Lemma nth_line_pixel (n : Z) :
  4 <= n <= 65539 ->
  exists j i, 0 <= j < 256 /\ 0 <= i < 256 /\
    nth_line image_text n = Some (triple i j 0).
Proof.
  intros H. exists ((n - 4) / 256), ((n - 4) mod 256).
  assert (Hi : 0 <= (n - 4) mod 256 < 256) by (apply Z.mod_pos_bound; lia).
  assert (Hj : 0 <= (n - 4) / 256 < 256)
    by (split; [apply Z.div_pos | apply Z.div_lt_upper_bound]; lia).
  repeat split; try lia.
  rewrite <- (pixel_line_image _ _ Hj Hi). unfold pixel_line. f_equal.
  pose proof (Z.div_mod (n - 4) 256). lia.
Qed.

(** * The properties of the specification *)

(** C1.  For every row [j] and column [i] from 0 to 255, the three integers
    of the pixel line are [floor (r * 255.999)], [floor (g * 255.999)] and
    [floor (b * 255.999)], where [r = i / (W - 1)], [g = j / (H - 1)],
    [b = 0.0] and [W = H = 256].  The formula gives the same integers when
    it is read over the rational numbers and when it is read over binary64
    numbers. *)
Theorem pixel_line_formula (fuel : nat) (j i : Z) :
  (256 <= fuel)%nat -> 0 <= j <= 255 -> 0 <= i <= 255 ->
  exists out,
    main fuel "" = Returns 0 out /\
    pixel_line out j i
    = Some (triple (intensity_exact (ratio_exact i 256))
                   (intensity_exact (ratio_exact j 256))
                   (intensity_exact 0)) /\
    channels out j i
    = Some (intensity_exact (ratio_exact i 256),
            intensity_exact (ratio_exact j 256),
            intensity_exact 0) /\
    intensity_double (ratio_double i 256)
    = Some (intensity_exact (ratio_exact i 256)) /\
    intensity_double (ratio_double j 256)
    = Some (intensity_exact (ratio_exact j 256)) /\
    intensity_double (double_of_int 0) = Some (intensity_exact 0).
Proof.
  intros Hfuel Hj Hi. exists image_text.
  rewrite !intensity_exact_value, !intensity_double_value by lia.
  change (intensity_exact 0) with 0.
  repeat split.
  - now apply main_run.
  - apply pixel_line_image; lia.
  - apply channels_image; lia.
Qed.

Lemma pixel_line_formula_witness :
  exists out,
    main 256 "" = Returns 0 out /\
    pixel_line out 7 200
    = Some (triple (intensity_exact (ratio_exact 200 256))
                   (intensity_exact (ratio_exact 7 256))
                   (intensity_exact 0)) /\
    channels out 7 200
    = Some (intensity_exact (ratio_exact 200 256),
            intensity_exact (ratio_exact 7 256),
            intensity_exact 0) /\
    intensity_double (ratio_double 200 256)
    = Some (intensity_exact (ratio_exact 200 256)) /\
    intensity_double (ratio_double 7 256)
    = Some (intensity_exact (ratio_exact 7 256)) /\
    intensity_double (double_of_int 0) = Some (intensity_exact 0).
Proof. apply (pixel_line_formula 256 7 200); lia. Defined.

(** C2.  The complete output is three header lines followed by 65536 pixel
    lines and nothing else: every line ends with a newline, nothing
    follows the last one, and every pixel line is three integers
    separated by single spaces. *)
Theorem output_shape (fuel : nat) :
  (256 <= fuel)%nat ->
  exists out pixels,
    main fuel "" = Returns 0 out /\
    out = unlines (header ++ pixels) /\
    lines out = (header ++ pixels)%list /\
    unterminated out = "" /\
    List.length header = 3%nat /\
    Z.of_nat (List.length pixels) = 65536 /\
    Forall (fun line =>
              exists r g b, line = triple r g b /\
                            read_pixel line = Some (r, g, b)) pixels.
Proof.
  intros Hfuel. exists image_text, rows.
  refine (conj _ (conj _ (conj _ (conj _ (conj _ (conj _ _)))))).
  - now apply main_run.
  - reflexivity.
  - apply lines_image.
  - apply unterminated_image.
  - reflexivity.
  - now rewrite length_rows.
  - apply Forall_forall. intros l H.
    apply rows_triples in H as (j & i & _ & _ & ->).
    exists i, j, 0. split; [reflexivity | apply read_pixel_triple].
Qed.

Lemma output_shape_witness :
  exists out pixels,
    main 256 "" = Returns 0 out /\
    out = unlines (header ++ pixels) /\
    lines out = (header ++ pixels)%list /\
    unterminated out = "" /\
    List.length header = 3%nat /\
    Z.of_nat (List.length pixels) = 65536 /\
    Forall (fun line =>
              exists r g b, line = triple r g b /\
                            read_pixel line = Some (r, g, b)) pixels.
Proof. apply (output_shape 256). lia. Defined.

(** C3.  The first line of the output is [P3], the second is [256 256]
    and the third is [255]. *)
Theorem header_lines (fuel : nat) :
  (256 <= fuel)%nat ->
  exists out,
    main fuel "" = Returns 0 out /\
    nth_line out 1 = Some "P3" /\
    nth_line out 2 = Some "256 256" /\
    nth_line out 3 = Some "255".
Proof.
  intros Hfuel. exists image_text. split; [now apply main_run|].
  rewrite !nth_line_header by lia. repeat split.
Qed.

Lemma header_lines_witness :
  exists out,
    main 300 "" = Returns 0 out /\
    nth_line out 1 = Some "P3" /\
    nth_line out 2 = Some "256 256" /\
    nth_line out 3 = Some "255".
Proof. apply (header_lines 300). lia. Defined.

(** C4.  Pixel lines come in row-major order from the top-left pixel: the
    line that the loop body prints for row [j] and column [i] is line
    number [3 + j * 256 + i + 1] of the output, for all [j] and [i] from 0
    to 255. *)
Theorem row_major_order (fuel : nat) (j i : Z) :
  (256 <= fuel)%nat -> 0 <= j <= 255 -> 0 <= i <= 255 ->
  exists out line,
    main fuel "" = Returns 0 out /\
    pixel 256 256 j i "" = Returns tt (line ++ nl) /\
    nth_line out (3 + j * 256 + i + 1) = Some line.
Proof.
  intros Hfuel Hj Hi. exists image_text, (triple i j 0). repeat split.
  - now apply main_run.
  - rewrite pixel_run by lia. reflexivity.
  - apply pixel_line_image; lia.
Qed.

Lemma row_major_order_witness :
  exists out line,
    main 256 "" = Returns 0 out /\
    pixel 256 256 2 5 "" = Returns tt (line ++ nl) /\
    nth_line out (3 + 2 * 256 + 5 + 1) = Some line.
Proof. apply (row_major_order 256 2 5); lia. Defined.

(** C5.  The pixel line of row 0, column 0 is [0 0 0]; that of row 0,
    column 255 is [255 0 0]; that of row 255, column 0 is [0 255 0]. *)
Theorem corner_pixels (fuel : nat) :
  (256 <= fuel)%nat ->
  exists out,
    main fuel "" = Returns 0 out /\
    pixel_line out 0 0 = Some "0 0 0" /\
    pixel_line out 0 255 = Some "255 0 0" /\
    pixel_line out 255 0 = Some "0 255 0".
Proof.
  intros Hfuel. exists image_text. split; [now apply main_run|].
  rewrite !pixel_line_image by lia. repeat split.
Qed.

Lemma corner_pixels_witness :
  exists out,
    main 256 "" = Returns 0 out /\
    pixel_line out 0 0 = Some "0 0 0" /\
    pixel_line out 0 255 = Some "255 0 0" /\
    pixel_line out 255 0 = Some "0 255 0".
Proof. apply (corner_pixels 256). lia. Defined.

(** C6.  The pixel line of row 128, column 128 is [128 128 0]:
    [floor ((128 / 255) * 255.999) = 128] for the red and the green
    channel, over the rational numbers and over binary64 numbers. *)
Theorem middle_pixel (fuel : nat) :
  (256 <= fuel)%nat ->
  exists out,
    main fuel "" = Returns 0 out /\
    pixel_line out 128 128 = Some "128 128 0" /\
    intensity_exact (inject_Z 128 / inject_Z 255) = 128 /\
    intensity_double (double_div (double_of_int 128) (double_of_int 255))
    = Some 128.
Proof.
  intros Hfuel. exists image_text. split; [now apply main_run|].
  rewrite pixel_line_image by lia. repeat split.
Qed.

Lemma middle_pixel_witness :
  exists out,
    main 256 "" = Returns 0 out /\
    pixel_line out 128 128 = Some "128 128 0" /\
    intensity_exact (inject_Z 128 / inject_Z 255) = 128 /\
    intensity_double (double_div (double_of_int 128) (double_of_int 255))
    = Some 128.
Proof. apply (middle_pixel 256). lia. Defined.

(** C7.  For every row [j] and column [i] from 0 to 255, the third integer
    of the pixel line, the blue channel, is 0. *)
Theorem blue_is_zero (fuel : nat) (j i : Z) :
  (256 <= fuel)%nat -> 0 <= j <= 255 -> 0 <= i <= 255 ->
  exists out line r g,
    main fuel "" = Returns 0 out /\
    pixel_line out j i = Some line /\
    read_pixel line = Some (r, g, 0) /\
    blue out j i = Some 0.
Proof.
  intros Hfuel Hj Hi. exists image_text, (triple i j 0), i, j.
  refine (conj _ (conj _ (conj _ _))).
  - now apply main_run.
  - apply pixel_line_image; lia.
  - apply read_pixel_triple.
  - unfold blue. rewrite channels_image by lia. reflexivity.
Qed.

Lemma blue_is_zero_witness :
  exists out line r g,
    main 256 "" = Returns 0 out /\
    pixel_line out 255 255 = Some line /\
    read_pixel line = Some (r, g, 0) /\
    blue out 255 255 = Some 0.
Proof. apply (blue_is_zero 256 255 255); lia. Defined.

(** C8.  Along a row the red channel does not decrease as the column grows
    from 0 to 255, and along a column the green channel does not decrease
    as the row grows from 0 to 255.  Below, [fixed] is the row in the
    first part and the column in the second, and [lo <= hi] are the two
    positions compared. *)
Theorem gradient_monotone (fuel : nat) (fixed lo hi : Z) :
  (256 <= fuel)%nat -> 0 <= fixed <= 255 -> 0 <= lo -> lo <= hi -> hi <= 255 ->
  exists out,
    main fuel "" = Returns 0 out /\
    (exists r r',
        red out fixed lo = Some r /\ red out fixed hi = Some r' /\ r <= r') /\
    (exists g g',
        green out lo fixed = Some g /\ green out hi fixed = Some g' /\ g <= g').
Proof.
  intros Hfuel Hfixed Hlo Hle Hhi. exists image_text.
  split; [now apply main_run|]. split.
  - exists lo, hi. unfold red. rewrite !channels_image by lia.
    repeat split. exact Hle.
  - exists lo, hi. unfold green. rewrite !channels_image by lia.
    repeat split. exact Hle.
Qed.

Lemma gradient_monotone_witness :
  exists out,
    main 256 "" = Returns 0 out /\
    (exists r r',
        red out 9 254 = Some r /\ red out 9 255 = Some r' /\ r <= r') /\
    (exists g g',
        green out 254 9 = Some g /\ green out 255 9 = Some g' /\ g <= g').
Proof. apply (gradient_monotone 256 9 254 255); lia. Defined.

(** C9.  Every integer on every pixel line, that is on each of the lines
    4 to 65539 of the output, is between 0 and 255; no channel value
    reaches 256. *)
Theorem channel_range (fuel : nat) (n : Z) :
  (256 <= fuel)%nat -> 4 <= n <= 65539 ->
  exists out line r g b,
    main fuel "" = Returns 0 out /\
    nth_line out n = Some line /\
    read_pixel line = Some (r, g, b) /\
    0 <= r <= 255 /\ 0 <= g <= 255 /\ 0 <= b <= 255.
Proof.
  intros Hfuel Hn.
  destruct (nth_line_pixel n Hn) as (j & i & Hj & Hi & Hline).
  exists image_text, (triple i j 0), i, j, 0.
  refine (conj _ (conj Hline (conj _ _))).
  - now apply main_run.
  - apply read_pixel_triple.
  - lia.
Qed.

Lemma channel_range_witness :
  exists out line r g b,
    main 256 "" = Returns 0 out /\
    nth_line out 65539 = Some line /\
    read_pixel line = Some (r, g, b) /\
    0 <= r <= 255 /\ 0 <= g <= 255 /\ 0 <= b <= 255.
Proof. apply (channel_range 256 65539); lia. Defined.

(** C10.  For every row [j] and column [i] from 0 to 255, the red channel
    is [i] and the green channel is [j]: the pixel line is [i j 0]. *)
Theorem gradient_identity (fuel : nat) (j i : Z) :
  (256 <= fuel)%nat -> 0 <= j <= 255 -> 0 <= i <= 255 ->
  exists out,
    main fuel "" = Returns 0 out /\
    pixel_line out j i = Some (itoa i ++ " " ++ itoa j ++ " " ++ "0") /\
    red out j i = Some i /\
    green out j i = Some j /\
    blue out j i = Some 0.
Proof.
  intros Hfuel Hj Hi. exists image_text.
  unfold red, green, blue. rewrite channels_image by lia.
  refine (conj _ (conj _ (conj eq_refl (conj eq_refl eq_refl)))).
  - now apply main_run.
  - apply pixel_line_image; lia.
Qed.

Lemma gradient_identity_witness :
  exists out,
    main 256 "" = Returns 0 out /\
    pixel_line out 37 201 = Some "201 37 0" /\
    red out 37 201 = Some 201 /\
    green out 37 201 = Some 37 /\
    blue out 37 201 = Some 0.
Proof. apply (gradient_identity 256 37 201); lia. Defined.


(** * Further properties of the program *)

(** ** The loop body at other sizes and coordinates *)


(** X1.  Whatever the image size and the coordinates, a completed run of
    the loop body leaves the earlier output untouched and appends one
    line of three integers, the third of which is 0. *)
Theorem pixel_appends_one_line (W H j i : Z) (out out' : string) :
  pixel W H j i out = Returns tt out' ->
  exists r g, out' = out ++ triple r g 0 ++ nl /\
              free_of LF (triple r g 0) = true.
Proof.
  unfold pixel, bind, lift.
  destruct (int_sub W 1) as [w1|]; [|discriminate].
  destruct (int_sub H 1) as [h1|]; [|discriminate].
  cbv beta iota zeta.
  destruct (int_of_double (double_mul lit_255_999
              (double_div (double_of_int i) (double_of_int w1)))) as [ir|];
    [|discriminate].
  destruct (int_of_double (double_mul lit_255_999
              (double_div (double_of_int j) (double_of_int h1)))) as [ig|];
    [|discriminate].
  change (int_of_double (double_mul lit_255_999 (double_of_int 0)))
    with (Some 0).
  unfold printf.
  change (format ("%d %d %d" ++ nl) [ir; ig; 0])
    with (Some (itoa ir ++ " " ++ itoa ig ++ " " ++ itoa 0 ++ nl)).
  intros E. injection E as <-. exists ir, ig. split.
  - unfold triple. now rewrite !append_assoc.
  - apply triple_free_LF.
Qed.

Lemma pixel_appends_one_line_witness :
  exists r g, "P3" ++ nl ++ "77 255 0" ++ nl = ("P3" ++ nl) ++ triple r g 0 ++ nl /\
              free_of LF (triple r g 0) = true.
Proof.
  apply (pixel_appends_one_line 100 3 2 30 ("P3" ++ nl)).
  vm_compute. reflexivity.
Defined.


(** Over the rational numbers the formula is an integer quotient. *)
Lemma intensity_exact_quotient (n size : Z) :
  2 <= size ->
  intensity_exact (ratio_exact n size) = n * 255999 / ((size - 1) * 1000).
Proof.
  intros Hsize. unfold intensity_exact, ratio_exact.
  destruct (size - 1) as [|p|p] eqn:E; try lia.
  unfold Qdiv, Qinv, Qmult, Qfloor, inject_Z. cbn [Qnum Qden].
  rewrite !Pos2Z.inj_mul. f_equal; lia.
Qed.

(** The conversion on every size from 2 to 256 and every coordinate below
    the size, checked by evaluation of the binary64 operations: the
    truncated product is the integer quotient of [n * 255999] by
    [(size - 1) * 1000]. *)
Lemma channel_table_sizes :
  forallb (fun size =>
    forallb (fun n =>
      match int_of_double
              (double_mul lit_255_999
                 (double_div (double_of_int n) (double_of_int (size - 1)))) with
      | Some z => z =? n * 255999 / ((size - 1) * 1000)
      | None => false
      end) (range 0 (Z.to_nat size))) (range 2 255) = true.
Proof. vm_compute. reflexivity. Qed.

Lemma channel_value_sizes (n size : Z) :
  2 <= size <= 256 -> 0 <= n < size ->
  int_of_double
    (double_mul lit_255_999
       (double_div (double_of_int n) (double_of_int (size - 1))))
  = Some (n * 255999 / ((size - 1) * 1000)) /\
  intensity_exact (ratio_exact n size) = n * 255999 / ((size - 1) * 1000).
Proof.
  intros Hsize Hn. split; [|apply intensity_exact_quotient; lia].
  pose proof channel_table_sizes as T.
  rewrite forallb_forall in T.
  assert (Isize : In size (range 2 255)) by (apply In_range; lia).
  specialize (T size Isize). rewrite forallb_forall in T.
  assert (In_n : In n (range 0 (Z.to_nat size))) by (apply In_range; lia).
  specialize (T n In_n).
  destruct int_of_double as [z|]; [|discriminate].
  apply Z.eqb_eq in T. congruence.
Qed.

Lemma quotient_bounds (n size : Z) :
  2 <= size -> 0 <= n < size ->
  0 <= n * 255999 / ((size - 1) * 1000) <= 255.
Proof.
  intros Hsize Hn. split.
  - apply Z.div_pos; lia.
  - assert (n * 255999 / ((size - 1) * 1000) < 256); [|lia].
    apply Z.div_lt_upper_bound; nia.
Qed.

Lemma pixel_run_sizes (W H j i : Z) (out : string) :
  2 <= W <= 256 -> 2 <= H <= 256 -> 0 <= j < H -> 0 <= i < W ->
  pixel W H j i out
  = Returns tt (out ++ triple (i * 255999 / ((W - 1) * 1000))
                              (j * 255999 / ((H - 1) * 1000)) 0 ++ nl).
Proof.
  intros HW HH Hj Hi. unfold pixel, bind, lift.
  assert (EW : int_sub W 1 = Some (W - 1)).
  { unfold int_sub, checked, in_int, INT_MIN, INT_MAX.
    replace (-2147483648 <=? W - 1) with true by (symmetry; apply Z.leb_le; lia).
    replace (W - 1 <=? 2147483647) with true by (symmetry; apply Z.leb_le; lia).
    reflexivity. }
  assert (EH : int_sub H 1 = Some (H - 1)).
  { unfold int_sub, checked, in_int, INT_MIN, INT_MAX.
    replace (-2147483648 <=? H - 1) with true by (symmetry; apply Z.leb_le; lia).
    replace (H - 1 <=? 2147483647) with true by (symmetry; apply Z.leb_le; lia).
    reflexivity. }
  rewrite EW, EH. cbv beta iota zeta.
  rewrite (proj1 (channel_value_sizes i W HW Hi)).
  rewrite (proj1 (channel_value_sizes j H HH Hj)).
  change (int_of_double (double_mul lit_255_999 (double_of_int 0)))
    with (Some 0).
  unfold printf.
  match goal with
  | |- context [format _ [?r; ?g; 0]] =>
      change (format ("%d %d %d" ++ nl) [r; g; 0])
        with (Some (itoa r ++ " " ++ itoa g ++ " " ++ itoa 0 ++ nl))
  end.
  unfold triple. now rewrite !append_assoc.
Qed.

(** X3.  For every width and height from 2 to 256 and every coordinate
    inside the image, the loop body prints [floor (i / (W - 1) * 255.999)],
    [floor (j / (H - 1) * 255.999)] and 0, the floors being those of the
    products over the rational numbers: at these sizes the binary64
    rounding never changes the integer part. *)
Theorem pixel_formula_sizes (W H j i : Z) (out : string) :
  2 <= W <= 256 -> 2 <= H <= 256 -> 0 <= j < H -> 0 <= i < W ->
  pixel W H j i out
  = Returns tt (out ++ triple (intensity_exact (ratio_exact i W))
                              (intensity_exact (ratio_exact j H)) 0 ++ nl).
Proof.
  intros HW HH Hj Hi.
  rewrite (proj2 (channel_value_sizes i W HW Hi)).
  rewrite (proj2 (channel_value_sizes j H HH Hj)).
  now apply pixel_run_sizes.
Qed.

Lemma pixel_formula_sizes_witness :
  pixel 100 3 2 30 ""
  = Returns tt ("" ++ triple (intensity_exact (ratio_exact 30 100))
                             (intensity_exact (ratio_exact 2 3)) 0 ++ nl).
Proof. apply (pixel_formula_sizes 100 3 2 30 ""); lia. Defined.

(** X4.  For every width and height from 2 to 256 the gradient spans the
    whole range: the top-left pixel is printed as [0 0 0] and the
    bottom-right pixel as [255 255 0]. *)
Theorem gradient_spans_sizes (W H : Z) (out : string) :
  2 <= W <= 256 -> 2 <= H <= 256 ->
  pixel W H 0 0 out = Returns tt (out ++ "0 0 0" ++ nl) /\
  pixel W H (H - 1) (W - 1) out = Returns tt (out ++ "255 255 0" ++ nl).
Proof.
  intros HW HH. split.
  - rewrite pixel_run_sizes by lia. reflexivity.
  - rewrite pixel_run_sizes by lia.
    replace ((W - 1) * 255999 / ((W - 1) * 1000)) with 255.
    + replace ((H - 1) * 255999 / ((H - 1) * 1000)) with 255; [reflexivity|].
      rewrite Z.div_mul_cancel_l by lia. reflexivity.
    + rewrite Z.div_mul_cancel_l by lia. reflexivity.
Qed.

Lemma gradient_spans_sizes_witness :
  pixel 2 17 0 0 "" = Returns tt ("" ++ "0 0 0" ++ nl) /\
  pixel 2 17 (17 - 1) (2 - 1) "" = Returns tt ("" ++ "255 255 0" ++ nl).
Proof. apply (gradient_spans_sizes 2 17 ""); lia. Defined.

(** X5.  For every width and height from 2 to 256, moving right or down
    inside the image never decreases the red or the green value printed
    by the loop body, and both stay between 0 and 255. *)
Theorem gradient_monotone_sizes (W H j j' i i' : Z) (out : string) :
  2 <= W <= 256 -> 2 <= H <= 256 ->
  0 <= j -> j <= j' -> j' < H -> 0 <= i -> i <= i' -> i' < W ->
  exists r g r' g',
    pixel W H j i out = Returns tt (out ++ triple r g 0 ++ nl) /\
    pixel W H j' i' out = Returns tt (out ++ triple r' g' 0 ++ nl) /\
    0 <= r /\ r <= r' /\ r' <= 255 /\ 0 <= g /\ g <= g' /\ g' <= 255.
Proof.
  intros HW HH Hj Hjj Hj' Hi Hii Hi'.
  exists (i * 255999 / ((W - 1) * 1000)), (j * 255999 / ((H - 1) * 1000)),
         (i' * 255999 / ((W - 1) * 1000)), (j' * 255999 / ((H - 1) * 1000)).
  split; [apply pixel_run_sizes; lia|].
  split; [apply pixel_run_sizes; lia|].
  pose proof (quotient_bounds i W) as Br.
  pose proof (quotient_bounds i' W) as Br'.
  pose proof (quotient_bounds j H) as Bg.
  pose proof (quotient_bounds j' H) as Bg'.
  assert (i * 255999 / ((W - 1) * 1000) <= i' * 255999 / ((W - 1) * 1000))
    by (apply Z.div_le_mono; lia).
  assert (j * 255999 / ((H - 1) * 1000) <= j' * 255999 / ((H - 1) * 1000))
    by (apply Z.div_le_mono; lia).
  lia.
Qed.

Lemma gradient_monotone_sizes_witness :
  exists r g r' g',
    pixel 64 48 10 20 "" = Returns tt ("" ++ triple r g 0 ++ nl) /\
    pixel 64 48 11 63 "" = Returns tt ("" ++ triple r' g' 0 ++ nl) /\
    0 <= r /\ r <= r' /\ r' <= 255 /\ 0 <= g /\ g <= g' /\ g' <= 255.
Proof. apply (gradient_monotone_sizes 64 48 10 11 20 63 ""); lia. Defined.

(** ** The size and the alphabet of the output *)

Lemma size_append (a b : string) : size (a ++ b) = size a + size b.
Proof.
  unfold size. induction a as [|c a IH]; [reflexivity|].
  cbn [append String.length]. lia.
Qed.

Lemma size_cat (ss : list string) : size (cat ss) = total (map size ss).
Proof.
  induction ss as [|s ss IH]; [reflexivity|].
  rewrite cat_cons, size_append, IH. reflexivity.
Qed.

Lemma total_app (xs ys : list Z) : total (xs ++ ys) = total xs + total ys.
Proof.
  induction xs as [|x xs IH]; [reflexivity|].
  cbn [app total fold_right]. fold (total (xs ++ ys)) (total xs). lia.
Qed.

Lemma total_rows (h : string -> Z) (js : list Z) :
  total (map h (flat_map row js))
  = total (map (fun j => total (map h (row j))) js).
Proof.
  induction js as [|j js IH]; [reflexivity|].
  cbn [flat_map map]. rewrite map_app, total_app, IH. reflexivity.
Qed.

Lemma size_image : size image_text = 599055.
Proof.
  unfold image_text, unlines. rewrite size_cat, map_map, map_app, total_app.
  unfold rows. rewrite total_rows. vm_compute. reflexivity.
Qed.

(** X6.  The program writes 599055 characters. *)
Theorem output_size (fuel : nat) :
  (256 <= fuel)%nat ->
  exists out, main fuel "" = Returns 0 out /\ size out = 599055.
Proof.
  intros Hfuel. exists image_text. split; [now apply main_run|].
  apply size_image.
Qed.

Lemma output_size_witness :
  exists out, main 256 "" = Returns 0 out /\ size out = 599055.
Proof. apply (output_size 256). lia. Defined.

Lemma nth_line_pixel_at (n : Z) :
  4 <= n <= 65539 ->
  nth_line image_text n = Some (triple ((n - 4) mod 256) ((n - 4) / 256) 0).
Proof.
  intros H.
  assert (Hi : 0 <= (n - 4) mod 256 < 256) by (apply Z.mod_pos_bound; lia).
  assert (Hj : 0 <= (n - 4) / 256 < 256)
    by (split; [apply Z.div_pos | apply Z.div_lt_upper_bound]; lia).
  rewrite <- (pixel_line_image _ _ Hj Hi). unfold pixel_line. f_equal.
  pose proof (Z.div_mod (n - 4) 256). lia.
Qed.

(** X7.  No two pixel lines of the output are equal: the 65536 pixels of
    the image have 65536 different colours. *)
Theorem pixel_lines_distinct (fuel : nat) (n m : Z) :
  (256 <= fuel)%nat -> 4 <= n <= 65539 -> 4 <= m <= 65539 -> n <> m ->
  exists out line line',
    main fuel "" = Returns 0 out /\
    nth_line out n = Some line /\
    nth_line out m = Some line' /\
    line <> line'.
Proof.
  intros Hfuel Hn Hm Hnm.
  exists image_text, (triple ((n - 4) mod 256) ((n - 4) / 256) 0),
         (triple ((m - 4) mod 256) ((m - 4) / 256) 0).
  split; [now apply main_run|].
  split; [now apply nth_line_pixel_at|].
  split; [now apply nth_line_pixel_at|].
  intros E. apply (f_equal read_pixel) in E.
  rewrite !read_pixel_triple in E. injection E as Ei Ej.
  pose proof (Z.div_mod (n - 4) 256). pose proof (Z.div_mod (m - 4) 256).
  lia.
Qed.

Lemma pixel_lines_distinct_witness :
  exists out line line',
    main 256 "" = Returns 0 out /\
    nth_line out 4 = Some line /\
    nth_line out 65539 = Some line' /\
    line <> line'.
Proof. apply (pixel_lines_distinct 256 4 65539); lia. Defined.

Lemma all_chars_app (p : ascii -> bool) (a b : string) :
  all_chars p (a ++ b) = all_chars p a && all_chars p b.
Proof.
  induction a as [|c a IH]; [reflexivity|].
  cbn [append all_chars]. now rewrite IH, andb_assoc.
Qed.

Lemma all_chars_cat (p : ascii -> bool) (ss : list string) :
  Forall (fun s => all_chars p s = true) ss -> all_chars p (cat ss) = true.
Proof.
  induction 1 as [|s ss Hs _ IH]; [reflexivity|].
  now rewrite cat_cons, all_chars_app, Hs, IH.
Qed.

Lemma uint_raster (d : Decimal.uint) :
  all_chars raster_char (NilEmpty.string_of_uint d) = true.
Proof. induction d; cbn [NilEmpty.string_of_uint all_chars]; auto. Qed.

Lemma itoa_raster (z : Z) : 0 <= z -> all_chars raster_char (itoa z) = true.
Proof.
  intros Hz. unfold itoa. destruct z as [|p|p]; [reflexivity| |lia].
  cbn [Z.to_int NilZero.string_of_int]. unfold NilZero.string_of_uint.
  destruct (Pos.to_uint p); try apply uint_raster. reflexivity.
Qed.

Lemma triple_raster (r g b : Z) :
  0 <= r -> 0 <= g -> 0 <= b -> all_chars raster_char (triple r g b ++ nl) = true.
Proof.
  intros Hr Hg Hb. unfold triple. rewrite !all_chars_app.
  now rewrite !itoa_raster.
Qed.

(** X8.  The output is the letter [P] followed by digits, spaces and
    newlines only: no minus sign and no other character is ever
    printed. *)
Theorem output_alphabet (fuel : nat) :
  (256 <= fuel)%nat ->
  exists out rest,
    main fuel "" = Returns 0 out /\
    out = String "P" rest /\
    all_chars raster_char rest = true.
Proof.
  intros Hfuel.
  exists image_text,
    (cat (map (fun l => l ++ nl) (["3"; "256 256"; "255"] ++ rows))).
  split; [now apply main_run|]. split.
  - unfold image_text, unlines. rewrite !map_app, !cat_app. reflexivity.
  - apply all_chars_cat. rewrite map_app. apply Forall_app. split.
    + repeat constructor.
    + apply Forall_forall. intros s Hs.
      apply in_map_iff in Hs as (l & <- & Hl).
      apply rows_triples in Hl as (j & i & Hj & Hi & ->).
      apply triple_raster; lia.
Qed.

Lemma output_alphabet_witness :
  exists out rest,
    main 256 "" = Returns 0 out /\
    out = String "P" rest /\
    all_chars raster_char rest = true.
Proof. apply (output_alphabet 256). lia. Defined.

Lemma itoa_size_table :
  forallb (fun n => size (itoa n) <=? 3) (range 0 256) = true.
Proof. vm_compute. reflexivity. Qed.

Lemma triple_size (j i : Z) :
  0 <= j < 256 -> 0 <= i < 256 -> size (triple i j 0) <= 9.
Proof.
  intros Hj Hi. pose proof itoa_size_table as T.
  rewrite forallb_forall in T.
  pose proof (T i (In_range 256 0 i Hi)) as Ti.
  pose proof (T j (In_range 256 0 j Hj)) as Tj.
  apply Z.leb_le in Ti, Tj.
  unfold triple. rewrite !size_append.
  change (size " ") with 1. change (size (itoa 0)) with 1. lia.
Qed.

(** X9.  No line of the output is longer than 9 characters. *)
Theorem line_size_bound (fuel : nat) (n : Z) :
  (256 <= fuel)%nat -> 1 <= n <= 65539 ->
  exists out line,
    main fuel "" = Returns 0 out /\
    nth_line out n = Some line /\
    size line <= 9.
Proof.
  intros Hfuel Hn. destruct (Z_lt_le_dec n 4) as [Hh|Hp].
  - exists image_text.
    assert (E : n = 1 \/ n = 2 \/ n = 3) by lia.
    rewrite nth_line_header by lia.
    destruct E as [-> | [-> | ->]];
      (eexists; split; [now apply main_run|]; split; [reflexivity|];
       vm_compute; discriminate).
  - destruct (nth_line_pixel n (conj Hp (proj2 Hn)))
      as (j & i & Hj & Hi & Hline).
    exists image_text, (triple i j 0).
    split; [now apply main_run|]. split; [exact Hline|].
    now apply triple_size.
Qed.

Lemma line_size_bound_witness :
  exists out line,
    main 256 "" = Returns 0 out /\
    nth_line out 65539 = Some line /\
    size line <= 9.
Proof. apply (line_size_bound 256 65539); lia. Defined.
